(** * The 9-qubit Shor code script: syndrome decoder and error injection

    A shallow embedding of the class [ShorCode] of [Atharva_Shor_Code.py]:
    the decoder [interpret_syndrome_eigenvalues], the error injection
    [add_error], the circuit recipes [encode] and
    [syndrome_eigenvalue_measurement], and the lines of the script that
    build a trial circuit and read its most likely outcome.

    Python integers are [Z]; a Python list is a [list]; the result tuples
    [('X', q)], [('Z', q)] and [('I', None)] are pairs of a [string] and an
    [option Z]; a list subscript that is out of range raises [IndexError],
    which is kept as an explicit outcome of the decoder. *)

From Stdlib Require Import ZArith List Ascii String Bool Lia.
Import ListNotations.

Local Open Scope string_scope.
Local Open Scope Z_scope.

(** ** Exceptions and the error monad *)

Inductive exn : Type :=
| IndexError.

Inductive result (A : Type) : Type :=
| Ok (a : A)
| Raise (e : exn).

Arguments Ok {A} a.
Arguments Raise {A} e.

Definition bind {A B : Type} (m : result A) (k : A -> result B) : result B :=
  match m with
  | Ok a => k a
  | Raise e => Raise e
  end.

Notation "v <- m ;; k" := (bind m (fun v => k))
  (at level 61, m at next level, right associativity).

(** ** Python lists *)

(** [l[i]] for an integer subscript: a negative subscript counts from the
    end, and a subscript outside the list raises [IndexError]. *)
Definition getitem {A : Type} (l : list A) (i : Z) : result A :=
  let n := Z.of_nat (List.length l) in
  let j := if i <? 0 then i + n else i in
  if (j <? 0) || (n <=? j) then Raise IndexError
  else match nth_error l (Z.to_nat j) with
       | Some v => Ok v
       | None => Raise IndexError
       end.

(** [range(n)] *)
Definition range (n : nat) : list Z := map Z.of_nat (seq 0 n).

(** ** The class *)

(** The two attributes [__init__] sets. *)
Record ShorCode : Type := mkShorCode {
  n_qubits : Z;
  n_ancilla : Z
}.

Definition init : ShorCode := mkShorCode 9 1.

(** The decoder's result: [(error_type, error_qubit)], where the qubit is
    [None] for [('I', None)]. *)
Definition classification : Type := string * option Z.

(** ** Syndrome interpretation *)

(** [1 if bit == 0 else -1] *)
Definition eigenvalue (bit : Z) : Z := if bit =? 0 then 1 else -1.

(** The body of [for block in range(3)]: [Some r] is [return r] from inside
    the loop, [None] is falling out of the loop. *)
Fixpoint bit_flip_loop (eigenvalues : list Z) (blocks : list Z)
  : result (option classification) :=
  match blocks with
  | [] => Ok None
  | block :: rest =>
      s1 <- getitem eigenvalues (block * 2) ;;
      s2 <- getitem eigenvalues (block * 2 + 1) ;;
      if (s1 =? -1) && (s2 =? 1) then Ok (Some ("X", Some (block * 3)))
      else if (s1 =? -1) && (s2 =? -1) then Ok (Some ("X", Some (block * 3 + 1)))
      else if (s1 =? 1) && (s2 =? -1) then Ok (Some ("X", Some (block * 3 + 2)))
      else bit_flip_loop eigenvalues rest
  end.

(** The phase-flip part, after the loop. *)
Definition phase_flip (eigenvalues : list Z) : result classification :=
  s_phase1 <- getitem eigenvalues 6 ;;
  s_phase2 <- getitem eigenvalues 7 ;;
  if (s_phase1 =? -1) && (s_phase2 =? 1) then Ok ("Z", Some 0)
  else if (s_phase1 =? -1) && (s_phase2 =? -1) then Ok ("Z", Some 3)
  else if (s_phase1 =? 1) && (s_phase2 =? -1) then Ok ("Z", Some 6)
  else Ok ("I", None).

Definition interpret_syndrome_eigenvalues
  (self : ShorCode) (syndrome_bits : list Z) : result classification :=
  let eigenvalues := map eigenvalue syndrome_bits in
  found <- bit_flip_loop eigenvalues (range 3) ;;
  match found with
  | Some r => Ok r
  | None => phase_flip eigenvalues
  end.

(** ** Error injection *)

(** The circuit object is the simulation library's.  [add_error] uses two of
    its methods, [circuit.x(qubit)] and [circuit.z(qubit)], each of which
    changes the circuit in place; the circuit after the call is the value
    returned here.  The instance for [QuantumCircuit] below takes each
    method as appending one gate, which is what the library does for a
    qubit index of the circuit, from 0 up to its number of qubits; for any
    other index the library raises or resolves the index itself, and the
    theorems about gates carry the range of the index as a hypothesis. *)
Class CircuitOps (C : Type) : Type := {
  gate_x : C -> Z -> C;
  gate_z : C -> Z -> C
}.

Definition add_error {C : Type} `{CircuitOps C}
  (self : ShorCode) (circuit : C) (error_type : string) (qubit : Z) : C :=
  if String.eqb error_type "X" then gate_x circuit qubit
  else if String.eqb error_type "Z" then gate_z circuit qubit
  else circuit.

(** The gates the class puts into a circuit, with their qubits. *)
Inductive Instruction : Type :=
| XGate (qubit : Z)
| ZGate (qubit : Z)
| HGate (qubit : Z)
| CXGate (control target : Z)
| CZGate (control target : Z).

(** ** Syndrome vectors *)

(** A value in {0,1}. *)
Definition is_bit (b : Z) : Prop := b = 0 \/ b = 1.

(** A syndrome vector as the decoder's contract describes it. *)
Definition syndrome_vector (s : list Z) : Prop :=
  List.length s = 8%nat /\ Forall is_bit s.

(** Replacing each nonzero element by 1. *)
Definition normalize (v : Z) : Z := if v =? 0 then 0 else 1.

(** The thirteen results the decoder has a [return] for: no error, a
    bit-flip on one of the nine qubits, a phase-flip on the first qubit of
    one of the three blocks. *)
Definition classifications : list classification :=
  [ ("I", None);
    ("X", Some 0); ("X", Some 1); ("X", Some 2);
    ("X", Some 3); ("X", Some 4); ("X", Some 5);
    ("X", Some 6); ("X", Some 7); ("X", Some 8);
    ("Z", Some 0); ("Z", Some 3); ("Z", Some 6) ].

(** ** The circuit object *)

(** A classical bit is the bit [index] of the register [name]; a classical
    register is the list of its bits, [ClassicalRegister(size, name)], and
    [register[i]] is the list subscript. *)
Record Clbit : Type := mkClbit {
  clbit_register : string;
  clbit_index : Z
}.

Definition ClassicalRegister : Type := list Clbit.

Definition classical_register (size : nat) (name : string) : ClassicalRegister :=
  map (mkClbit name) (range size).

(** What a circuit holds: gates, measurements of a qubit into a classical
    bit, and resets. *)
Inductive Operation : Type :=
| Gate (g : Instruction)
| Measure (qubit : Z) (clbit : Clbit)
| Reset (qubit : Z).

(** The circuit: its number of qubits, its list [cregs] of classical
    registers and the list [data] of the operations appended so far.  Each
    method below is the library's call of that name, taken as appending one
    operation; the library's own checks of the operands (a qubit outside the
    circuit, a two-qubit gate on one qubit twice) are not part of the
    model. *)
Record QuantumCircuit : Type := mkQuantumCircuit {
  num_qubits : Z;
  cregs : list ClassicalRegister;
  data : list Operation
}.

Module Circuit.

Definition append (circuit : QuantumCircuit) (op : Operation) : QuantumCircuit :=
  mkQuantumCircuit (num_qubits circuit) (cregs circuit) (data circuit ++ [op]).

Definition h (circuit : QuantumCircuit) (qubit : Z) : QuantumCircuit :=
  append circuit (Gate (HGate qubit)).

Definition x (circuit : QuantumCircuit) (qubit : Z) : QuantumCircuit :=
  append circuit (Gate (XGate qubit)).

Definition z (circuit : QuantumCircuit) (qubit : Z) : QuantumCircuit :=
  append circuit (Gate (ZGate qubit)).

Definition cx (circuit : QuantumCircuit) (control target : Z) : QuantumCircuit :=
  append circuit (Gate (CXGate control target)).

Definition cz (circuit : QuantumCircuit) (control target : Z) : QuantumCircuit :=
  append circuit (Gate (CZGate control target)).

Definition measure (circuit : QuantumCircuit) (qubit : Z) (clbit : Clbit)
  : QuantumCircuit :=
  append circuit (Measure qubit clbit).

Definition reset (circuit : QuantumCircuit) (qubit : Z) : QuantumCircuit :=
  append circuit (Reset qubit).

End Circuit.

#[export] Instance QuantumCircuitOps : CircuitOps QuantumCircuit := {
  gate_x := Circuit.x;
  gate_z := Circuit.z
}.

(** ** Encoding *)

Definition encode (self : ShorCode) (circuit : QuantumCircuit) (data_qubit : Z)
  : QuantumCircuit :=
  let circuit := Circuit.cx circuit data_qubit 3 in
  let circuit := Circuit.cx circuit data_qubit 6 in
  let circuit := Circuit.h circuit 0 in
  let circuit := Circuit.h circuit 3 in
  let circuit := Circuit.h circuit 6 in
  let circuit := Circuit.cx circuit 0 1 in
  let circuit := Circuit.cx circuit 0 2 in
  let circuit := Circuit.cx circuit 3 4 in
  let circuit := Circuit.cx circuit 3 5 in
  let circuit := Circuit.cx circuit 6 7 in
  let circuit := Circuit.cx circuit 6 8 in
  circuit.

(** ** Syndrome measurement *)

(** [enumerate(l)] *)
Definition enumerate {A : Type} (l : list A) : list (Z * A) :=
  combine (range (List.length l)) l.

(** One of the three loops [for i, (q1, q2) in enumerate([...])], which
    differ in the pairs and in the subscript [i + offset] of the syndrome
    bit. *)
Fixpoint block_stabilizers
  (circuit : QuantumCircuit) (syndrome_reg : ClassicalRegister) (offset : Z)
  (pairs : list (Z * (Z * Z))) : result QuantumCircuit :=
  match pairs with
  | [] => Ok circuit
  | (i, (q1, q2)) :: rest =>
      let circuit := Circuit.h circuit 9 in
      let circuit := Circuit.cz circuit q1 9 in
      let circuit := Circuit.cz circuit q2 9 in
      let circuit := Circuit.h circuit 9 in
      clbit <- getitem syndrome_reg (i + offset) ;;
      let circuit := Circuit.measure circuit 9 clbit in
      let circuit := Circuit.reset circuit 9 in
      block_stabilizers circuit syndrome_reg offset rest
  end.

Definition syndrome_eigenvalue_measurement
  (self : ShorCode) (circuit : QuantumCircuit) : result QuantumCircuit :=
  syndrome_reg <- getitem (cregs circuit) (-1) ;;
  circuit <- block_stabilizers circuit syndrome_reg 0 (enumerate [(0, 1); (1, 2)]) ;;
  circuit <- block_stabilizers circuit syndrome_reg 2 (enumerate [(3, 4); (4, 5)]) ;;
  circuit <- block_stabilizers circuit syndrome_reg 4 (enumerate [(6, 7); (7, 8)]) ;;
  let circuit :=
    fold_left
      (fun circuit block_start =>
         let circuit := Circuit.cx circuit block_start (block_start + 1) in
         Circuit.cx circuit block_start (block_start + 2))
      [0; 3; 6] circuit in
  let circuit := fold_left Circuit.h [0; 3; 6] circuit in
  let circuit := fold_left (fun circuit q => Circuit.cx circuit q 9)
                           [0; 1; 2; 3; 4; 5] circuit in
  clbit <- getitem syndrome_reg 6 ;;
  let circuit := Circuit.measure circuit 9 clbit in
  let circuit := Circuit.reset circuit 9 in
  let circuit := fold_left (fun circuit q => Circuit.cx circuit q 9)
                           [3; 4; 5; 6; 7; 8] circuit in
  clbit <- getitem syndrome_reg 7 ;;
  let circuit := Circuit.measure circuit 9 clbit in
  let circuit := Circuit.reset circuit 9 in
  Ok circuit.

(** ** The script *)

(** The circuit one pass of the script's loop builds for [(error_type,
    qubit)], from the registers to the syndrome measurement. *)
Definition trial_circuit (shor : ShorCode) (error_type : string) (qubit : Z)
  : result QuantumCircuit :=
  let cr := classical_register 8 "syndrome" in
  let qc := mkQuantumCircuit 10 [cr] [] in
  let qc := Circuit.h qc 0 in
  let qc := encode shor qc 0 in
  let qc := add_error shor qc error_type qubit in
  syndrome_eigenvalue_measurement shor qc.

(** The script's own exceptions: [int] on a character that is no digit
    raises [ValueError]; an exception of the decoder goes through. *)
Inductive script_exn : Type :=
| ValueError
| Uncaught (e : exn).

Inductive script_result (A : Type) : Type :=
| Done (a : A)
| Failed (e : script_exn).

Arguments Done {A} a.
Arguments Failed {A} e.

(** [int(bit)] for a string of one character, the character being a code
    point below 256: the ten decimal digits have a value. *)
Definition int_of_char (bit : Ascii.ascii) : script_result Z :=
  let code := Z.of_N (Ascii.N_of_ascii bit) in
  if (48 <=? code) && (code <=? 57) then Done (code - 48) else Failed ValueError.

(** [[int(bit) for bit in chars]] *)
Fixpoint int_each (chars : list Ascii.ascii) : script_result (list Z) :=
  match chars with
  | [] => Done []
  | bit :: rest =>
      match int_of_char bit with
      | Failed e => Failed e
      | Done v =>
          match int_each rest with
          | Failed e => Failed e
          | Done vs => Done (v :: vs)
          end
      end
  end.

(** [[int(bit) for bit in most_likely[::-1]]] *)
Definition syndrome_bits_of (most_likely : string) : script_result (list Z) :=
  int_each (rev (list_ascii_of_string most_likely)).

(** The two lines that turn the most likely outcome into the detected
    error. *)
Definition detect (shor : ShorCode) (most_likely : string)
  : script_result classification :=
  match syndrome_bits_of most_likely with
  | Failed e => Failed e
  | Done syndrome_bits =>
      match interpret_syndrome_eigenvalues shor syndrome_bits with
      | Ok r => Done r
      | Raise e => Failed (Uncaught e)
      end
  end.

(** ** Reading a circuit *)

(** The measurements of a list of operations, in order. *)
Definition measurements (ops : list Operation) : list (Z * Clbit) :=
  flat_map (fun op => match op with
                      | Measure qubit clbit => [(qubit, clbit)]
                      | _ => []
                      end) ops.

(** The Pauli gates X and Z of a list of operations, in order. *)
Definition pauli_gates (ops : list Operation) : list Instruction :=
  flat_map (fun op => match op with
                      | Gate (XGate q) => [XGate q]
                      | Gate (ZGate q) => [ZGate q]
                      | _ => []
                      end) ops.

(** The qubits an operation acts on. *)
Definition qubits_of (op : Operation) : list Z :=
  match op with
  | Gate (XGate q) | Gate (ZGate q) | Gate (HGate q) => [q]
  | Gate (CXGate c t) | Gate (CZGate c t) => [c; t]
  | Measure q _ => [q]
  | Reset q => [q]
  end.

(** The data qubits coupled to [ancilla] by two-qubit gates since its last
    reset, listed at each measurement of [ancilla] with the classical bit
    measured into. *)
Fixpoint coupled_at_measurements
  (ancilla : Z) (ops : list Operation) (coupled : list Z)
  : list (Clbit * list Z) :=
  match ops with
  | [] => []
  | Gate (CXGate a b) :: rest
  | Gate (CZGate a b) :: rest =>
      if b =? ancilla then coupled_at_measurements ancilla rest (coupled ++ [a])
      else if a =? ancilla then coupled_at_measurements ancilla rest (coupled ++ [b])
      else coupled_at_measurements ancilla rest coupled
  | Gate _ :: rest => coupled_at_measurements ancilla rest coupled
  | Measure q clbit :: rest =>
      if q =? ancilla
      then (clbit, coupled) :: coupled_at_measurements ancilla rest coupled
      else coupled_at_measurements ancilla rest coupled
  | Reset q :: rest =>
      if q =? ancilla then coupled_at_measurements ancilla rest []
      else coupled_at_measurements ancilla rest coupled
  end.

(** ** Propagation of an injected Pauli gate *)

(** How a circuit with Pauli gates X and Z in it differs from the same
    circuit without them: per qubit, whether an X and whether a Z is
    pending; a Hadamard exchanges the two, a controlled-NOT copies an X
    from control to target and a Z from target to control, a controlled-Z
    turns an X on either qubit into a Z on the other, a measurement comes
    out flipped exactly when an X is pending on the measured qubit, and a
    reset clears the qubit. *)
Record Frame : Type := mkFrame {
  pending_x : Z -> bool;
  pending_z : Z -> bool
}.

Definition no_error : Frame := mkFrame (fun _ => false) (fun _ => false).

Definition update (f : Z -> bool) (q : Z) (v : bool) : Z -> bool :=
  fun q' => if q' =? q then v else f q'.

Definition propagate (fr : Frame) (op : Operation) : Frame * list (Clbit * bool) :=
  let fx := pending_x fr in
  let fz := pending_z fr in
  match op with
  | Gate (XGate q) => (mkFrame (update fx q (negb (fx q))) fz, [])
  | Gate (ZGate q) => (mkFrame fx (update fz q (negb (fz q))), [])
  | Gate (HGate q) => (mkFrame (update fx q (fz q)) (update fz q (fx q)), [])
  | Gate (CXGate c t) =>
      (mkFrame (update fx t (xorb (fx t) (fx c)))
               (update fz c (xorb (fz c) (fz t))), [])
  | Gate (CZGate a b) =>
      (mkFrame fx
               (update (update fz a (xorb (fz a) (fx b)))
                       b (xorb (fz b) (fx a))), [])
  | Measure q clbit => (fr, [(clbit, fx q)])
  | Reset q => (mkFrame (update fx q false) (update fz q false), [])
  end.

(** The measurements of a list of operations with, for each, whether the
    Pauli gates before it flip its outcome. *)
Fixpoint flipped_outcomes (fr : Frame) (ops : list Operation) : list (Clbit * bool) :=
  match ops with
  | [] => []
  | op :: rest =>
      let (fr', out) := propagate fr op in
      (out ++ flipped_outcomes fr' rest)%list
  end.

(** The syndrome bits of a circuit whose outcome without Pauli gates is all
    zeros: 1 where the outcome is flipped. *)
Definition flipped_syndrome (circuit : QuantumCircuit) : list Z :=
  map (fun out : Clbit * bool => if snd out then 1 else 0)
      (flipped_outcomes no_error (data circuit)).

(** ** Strings of digits *)

(** The code point of a character. *)
Definition code_of (c : Ascii.ascii) : Z := Z.of_N (Ascii.N_of_ascii c).

(** One of the ten decimal digits. *)
Definition is_digit (c : Ascii.ascii) : Prop := 48 <= code_of c <= 57.

(** ['0'] or ['1']. *)
Definition is_bit_char (c : Ascii.ascii) : Prop := c = "0"%char \/ c = "1"%char.

(** Closed lists of bits. *)
Ltac bits :=
  repeat (apply Forall_cons; [unfold is_bit; lia|]); apply Forall_nil.

Ltac closed_syndrome_vector := split; [reflexivity | bits].

Example decode_X4 :
  interpret_syndrome_eigenvalues init [0;0;1;1;0;0;0;0] = Ok ("X", Some 4).
Proof. reflexivity. Qed.

Example decode_short :
  interpret_syndrome_eigenvalues init [0;0;0;0;0;0;1] = Raise IndexError.
Proof. reflexivity. Qed.

Example decode_short_early :
  interpret_syndrome_eigenvalues init [0;1] = Ok ("X", Some 2).
Proof. reflexivity. Qed.

(** ** Subscripts *)

Lemma getitem_in_range {A : Type} (l : list A) (i : Z) :
  0 <= i < Z.of_nat (List.length l) ->
  exists v, nth_error l (Z.to_nat i) = Some v /\ getitem l i = Ok v.
Proof.
  intros Hi. unfold getitem.
  destruct (i <? 0) eqn:Hneg; [apply Z.ltb_lt in Hneg; lia|].
  replace ((i <? 0) || (Z.of_nat (List.length l) <=? i)) with false.
  - destruct (nth_error l (Z.to_nat i)) as [v|] eqn:Hnth.
    + exists v. split; reflexivity.
    + apply nth_error_None in Hnth. lia.
  - symmetry. apply orb_false_iff. split.
    + exact Hneg.
    + apply Z.leb_gt. lia.
Qed.

Lemma getitem_map {A B : Type} (f : A -> B) (l : list A) (i : Z) :
  getitem (map f l) i =
  match getitem l i with
  | Ok v => Ok (f v)
  | Raise e => Raise e
  end.
Proof.
  unfold getitem. rewrite length_map.
  destruct ((_ <? 0) || (_ <=? _)); [reflexivity|].
  rewrite nth_error_map.
  destruct (nth_error l _); reflexivity.
Qed.

(** An eigenvalue is +1 exactly for the bit 0, and -1 otherwise. *)
Lemma eigenvalue_cases (bit : Z) :
  (bit = 0 /\ eigenvalue bit = 1) \/ (bit <> 0 /\ eigenvalue bit = -1).
Proof.
  unfold eigenvalue. destruct (Z.eqb_spec bit 0); [left | right]; auto.
Qed.

Lemma eigenvalue_normalize (v : Z) : eigenvalue (normalize v) = eigenvalue v.
Proof.
  unfold eigenvalue, normalize. destruct (v =? 0); reflexivity.
Qed.

Lemma normalize_bit (v : Z) : is_bit (normalize v).
Proof.
  unfold is_bit, normalize. destruct (v =? 0); auto.
Qed.

(** ** Lists of eight elements *)

Lemma length8_inv {A : Type} (l : list A) :
  List.length l = 8%nat ->
  exists a0 a1 a2 a3 a4 a5 a6 a7, l = [a0; a1; a2; a3; a4; a5; a6; a7].
Proof.
  intros H.
  do 8 (destruct l as [|? l]; [discriminate H|]).
  destruct l; [|discriminate H].
  repeat eexists.
Qed.

(** ** The loop over the blocks *)

(** What one block's pair makes of the loop body. *)
Lemma bit_flip_loop_step (e : list Z) (block : Z) (rest : list Z) (s1 s2 : Z) :
  getitem e (block * 2) = Ok s1 ->
  getitem e (block * 2 + 1) = Ok s2 ->
  bit_flip_loop e (block :: rest) =
    if (s1 =? -1) && (s2 =? 1) then Ok (Some ("X", Some (block * 3)))
    else if (s1 =? -1) && (s2 =? -1) then Ok (Some ("X", Some (block * 3 + 1)))
    else if (s1 =? 1) && (s2 =? -1) then Ok (Some ("X", Some (block * 3 + 2)))
    else bit_flip_loop e rest.
Proof.
  intros H1 H2. simpl. rewrite H1. simpl. rewrite H2. reflexivity.
Qed.

(** A block whose pair is (+1,+1) is passed over. *)
Lemma bit_flip_loop_skip (e : list Z) (block : Z) (rest : list Z) :
  getitem e (block * 2) = Ok 1 ->
  getitem e (block * 2 + 1) = Ok 1 ->
  bit_flip_loop e (block :: rest) = bit_flip_loop e rest.
Proof.
  intros H1 H2. rewrite (bit_flip_loop_step e block rest 1 1 H1 H2). reflexivity.
Qed.

(** Blocks that all read (+1,+1) before the rest of the list are passed
    over one after the other. *)
Lemma bit_flip_loop_prefix (e : list Z) (pre post : list Z) :
  Forall (fun j => getitem e (j * 2) = Ok 1 /\ getitem e (j * 2 + 1) = Ok 1) pre ->
  bit_flip_loop e (pre ++ post) = bit_flip_loop e post.
Proof.
  induction 1 as [|j pre [H1 H2] _ IH].
  - reflexivity.
  - change ((j :: pre) ++ post)%list with (j :: (pre ++ post))%list.
    rewrite bit_flip_loop_skip by assumption. exact IH.
Qed.

(** The loop returns only bit-flips, on one of its blocks' three qubits. *)
Lemma bit_flip_loop_returns (e : list Z) (blocks : list Z) (r : classification) :
  bit_flip_loop e blocks = Ok (Some r) ->
  exists block off,
    In block blocks /\ 0 <= off <= 2 /\ r = ("X", Some (block * 3 + off)).
Proof.
  induction blocks as [|block rest IH]; simpl; [discriminate|].
  destruct (getitem e (block * 2)) as [s1|]; simpl; [|discriminate].
  destruct (getitem e (block * 2 + 1)) as [s2|]; simpl; [|discriminate].
  destruct ((s1 =? -1) && (s2 =? 1)).
  { intros [= <-]. exists block, 0. rewrite Z.add_0_r. repeat split; auto; lia. }
  destruct ((s1 =? -1) && (s2 =? -1)).
  { intros [= <-]. exists block, 1. repeat split; auto; lia. }
  destruct ((s1 =? 1) && (s2 =? -1)).
  { intros [= <-]. exists block, 2. repeat split; auto; lia. }
  intros H. destruct (IH H) as (b & off & Hin & Hoff & ->).
  exists b, off. auto.
Qed.

(** The loop raises nothing when every subscript it uses is in range. *)
Lemma bit_flip_loop_total (e : list Z) (blocks : list Z) :
  Forall (fun j => 0 <= j * 2 /\ j * 2 + 1 < Z.of_nat (List.length e)) blocks ->
  exists found, bit_flip_loop e blocks = Ok found.
Proof.
  induction 1 as [|j rest [Hlo Hhi] _ [found IH]].
  - exists None. reflexivity.
  - destruct (getitem_in_range e (j * 2)) as (s1 & _ & H1); [lia|].
    destruct (getitem_in_range e (j * 2 + 1)) as (s2 & _ & H2); [lia|].
    rewrite (bit_flip_loop_step e j rest s1 s2 H1 H2).
    repeat (destruct (_ && _); [eexists; reflexivity|]).
    exists found. exact IH.
Qed.

(** Falling out of the loop: every block read a pair of eigenvalues that is
    none of the three bit-flip patterns. *)
Lemma bit_flip_loop_none (e : list Z) (blocks : list Z) :
  bit_flip_loop e blocks = Ok None ->
  Forall (fun j => exists s1 s2,
            getitem e (j * 2) = Ok s1 /\ getitem e (j * 2 + 1) = Ok s2 /\
            (s1 =? -1) && (s2 =? 1) = false /\
            (s1 =? -1) && (s2 =? -1) = false /\
            (s1 =? 1) && (s2 =? -1) = false) blocks.
Proof.
  induction blocks as [|j rest IH]; simpl; intros H; [constructor|].
  destruct (getitem e (j * 2)) as [s1|] eqn:H1; simpl in H; [|discriminate].
  destruct (getitem e (j * 2 + 1)) as [s2|] eqn:H2; simpl in H; [|discriminate].
  destruct ((s1 =? -1) && (s2 =? 1)) eqn:Ha; [discriminate|].
  destruct ((s1 =? -1) && (s2 =? -1)) eqn:Hb; [discriminate|].
  destruct ((s1 =? 1) && (s2 =? -1)) eqn:Hc; [discriminate|].
  constructor; [|exact (IH H)].
  exists s1, s2. repeat split; assumption.
Qed.

(** Every element of the eigenvalue list is +1 or -1. *)
Lemma getitem_eigenvalues (s : list Z) (i v : Z) :
  getitem (map eigenvalue s) i = Ok v -> v = 1 \/ v = -1.
Proof.
  rewrite getitem_map.
  destruct (getitem s i) as [b|]; [|discriminate].
  intros [= <-].
  destruct (eigenvalue_cases b) as [[_ ->] | [_ ->]]; auto.
Qed.

(** [range(3)] cut at one of its blocks. *)
Lemma range3_split (k : Z) :
  0 <= k < 3 ->
  exists pre post,
    range 3 = (pre ++ k :: post)%list /\ forall j, In j pre -> 0 <= j < k.
Proof.
  intros Hk.
  assert (k = 0 \/ k = 1 \/ k = 2) as [-> | [-> | ->]] by lia.
  - exists [], [1; 2]. split; [reflexivity|]. intros j [].
  - exists [0], [2]. split; [reflexivity|]. simpl. intros j [<- | []]. lia.
  - exists [0; 1], []. split; [reflexivity|]. simpl. intros j [<- | [<- | []]]; lia.
Qed.

(** * Theorems *)

(** C1.  On a syndrome vector of eight bits, with the eigenvalues
    [e = map eigenvalue s], let [k] be the first of the blocks 0, 1, 2 whose
    pair [(s1, s2) = (e[2k], e[2k+1])] is not (+1,+1): all blocks before it
    read (+1,+1).  Then the pair is one of the three patterns and the
    decoder returns at once ('X', 3k) for (-1,+1), ('X', 3k+1) for (-1,-1)
    and ('X', 3k+2) for (+1,-1).  Nothing is assumed about the later blocks
    or about the phase bits 6 and 7, so they do not matter. *)
Theorem first_nontrivial_block_decides
  (self : ShorCode) (s : list Z) (k s1 s2 : Z) :
  syndrome_vector s ->
  0 <= k < 3 ->
  (forall j, 0 <= j < k ->
     getitem (map eigenvalue s) (2 * j) = Ok 1 /\
     getitem (map eigenvalue s) (2 * j + 1) = Ok 1) ->
  getitem (map eigenvalue s) (2 * k) = Ok s1 ->
  getitem (map eigenvalue s) (2 * k + 1) = Ok s2 ->
  (s1, s2) <> (1, 1) ->
  (s1 = -1 /\ s2 = 1 /\
   interpret_syndrome_eigenvalues self s = Ok ("X", Some (3 * k))) \/
  (s1 = -1 /\ s2 = -1 /\
   interpret_syndrome_eigenvalues self s = Ok ("X", Some (3 * k + 1))) \/
  (s1 = 1 /\ s2 = -1 /\
   interpret_syndrome_eigenvalues self s = Ok ("X", Some (3 * k + 2))).
Proof.
  intros _ Hk Hbefore H1 H2 Hpair.
  destruct (range3_split k Hk) as (pre & post & Hrange & Hpre).
  assert (Hloop :
    bit_flip_loop (map eigenvalue s) (range 3) =
    bit_flip_loop (map eigenvalue s) (k :: post)).
  { rewrite Hrange. apply bit_flip_loop_prefix.
    apply Forall_forall. intros j Hj.
    rewrite (Z.mul_comm j 2). apply Hbefore. apply Hpre. exact Hj. }
  unfold interpret_syndrome_eigenvalues. rewrite Hloop.
  rewrite (Z.mul_comm 2 k) in H1, H2.
  rewrite (bit_flip_loop_step _ k post s1 s2 H1 H2).
  rewrite (Z.mul_comm 3 k).
  destruct (getitem_eigenvalues _ _ _ H1) as [-> | ->];
    destruct (getitem_eigenvalues _ _ _ H2) as [-> | ->]; simpl.
  - contradiction Hpair. reflexivity.
  - right. right. auto.
  - left. auto.
  - right. left. auto.
Qed.

Lemma first_nontrivial_block_decides_witness :
  interpret_syndrome_eigenvalues init [0; 0; 1; 1; 0; 1; 1; 0]
  = Ok ("X", Some (3 * 1 + 1)).
Proof.
  destruct (first_nontrivial_block_decides init [0; 0; 1; 1; 0; 1; 1; 0] 1 (-1) (-1))
    as [(_ & H & _) | [(_ & _ & H) | (H & _)]].
  - closed_syndrome_vector.
  - lia.
  - intros j Hj. assert (j = 0) as -> by lia. split; reflexivity.
  - reflexivity.
  - reflexivity.
  - discriminate.
  - discriminate H.
  - exact H.
  - discriminate H.
Defined.

(** With bits 0-5 all zero the loop over the blocks finds nothing. *)
Lemma bit_flip_loop_zero_prefix (b6 b7 : Z) :
  bit_flip_loop (map eigenvalue [0; 0; 0; 0; 0; 0; b6; b7]) (range 3) = Ok None.
Proof.
  change (range 3) with ([0; 1; 2] ++ [])%list.
  rewrite bit_flip_loop_prefix; [reflexivity|].
  repeat (apply Forall_cons; [split; reflexivity|]). apply Forall_nil.
Qed.

Lemma zero_prefix_inv (s : list Z) :
  List.length s = 8%nat ->
  firstn 6 s = [0; 0; 0; 0; 0; 0] ->
  exists b6 b7, s = [0; 0; 0; 0; 0; 0; b6; b7].
Proof.
  intros Hlen Hpre.
  destruct (length8_inv s Hlen) as (a0 & a1 & a2 & a3 & a4 & a5 & a6 & a7 & ->).
  injection Hpre as -> -> -> -> -> ->.
  exists a6, a7. reflexivity.
Qed.

(** C2.  On a syndrome vector of eight bits whose bits 0-5 are all 0, the
    decoder reads [(p1, p2) = (e[6], e[7])] and returns ('Z', 0) for
    (-1,+1), ('Z', 3) for (-1,-1), ('Z', 6) for (+1,-1) and ('I', None) for
    (+1,+1); these are the only four pairs. *)
Theorem phase_flip_when_no_bit_flip
  (self : ShorCode) (s : list Z) (p1 p2 : Z) :
  syndrome_vector s ->
  firstn 6 s = [0; 0; 0; 0; 0; 0] ->
  getitem (map eigenvalue s) 6 = Ok p1 ->
  getitem (map eigenvalue s) 7 = Ok p2 ->
  (p1 = -1 /\ p2 = 1 /\
   interpret_syndrome_eigenvalues self s = Ok ("Z", Some 0)) \/
  (p1 = -1 /\ p2 = -1 /\
   interpret_syndrome_eigenvalues self s = Ok ("Z", Some 3)) \/
  (p1 = 1 /\ p2 = -1 /\
   interpret_syndrome_eigenvalues self s = Ok ("Z", Some 6)) \/
  (p1 = 1 /\ p2 = 1 /\
   interpret_syndrome_eigenvalues self s = Ok ("I", None)).
Proof.
  intros [Hlen _] Hpre H6 H7.
  destruct (zero_prefix_inv s Hlen Hpre) as (b6 & b7 & ->).
  unfold interpret_syndrome_eigenvalues.
  rewrite bit_flip_loop_zero_prefix. cbn [bind].
  unfold phase_flip. rewrite H6. cbn [bind]. rewrite H7. cbn [bind].
  destruct (getitem_eigenvalues _ _ _ H6) as [-> | ->];
    destruct (getitem_eigenvalues _ _ _ H7) as [-> | ->]; simpl; auto 10.
Qed.

Lemma phase_flip_when_no_bit_flip_witness :
  interpret_syndrome_eigenvalues init [0; 0; 0; 0; 0; 0; 0; 1] = Ok ("Z", Some 6).
Proof.
  destruct (phase_flip_when_no_bit_flip init [0; 0; 0; 0; 0; 0; 0; 1] 1 (-1))
    as [(H & _) | [(H & _) | [(_ & _ & H) | (_ & H & _)]]].
  - closed_syndrome_vector.
  - reflexivity.
  - reflexivity.
  - reflexivity.
  - discriminate H.
  - discriminate H.
  - exact H.
  - discriminate H.
Defined.

(** C4, as the code has it.  On a syndrome vector of eight bits whose bits
    0-5 are all 0 and whose bits 6-7 are [1, 0] (eigenvalues (-1, +1)), the
    decoder returns ('Z', 0). *)
Theorem phase_bits_10_give_Z0 (self : ShorCode) (s : list Z) :
  syndrome_vector s ->
  firstn 6 s = [0; 0; 0; 0; 0; 0] ->
  skipn 6 s = [1; 0] ->
  map eigenvalue (skipn 6 s) = [-1; 1] /\
  interpret_syndrome_eigenvalues self s = Ok ("Z", Some 0).
Proof.
  intros [Hlen _] Hpre Hsuf.
  destruct (zero_prefix_inv s Hlen Hpre) as (b6 & b7 & ->).
  injection Hsuf as -> ->.
  split; reflexivity.
Qed.

Lemma phase_bits_10_give_Z0_witness :
  interpret_syndrome_eigenvalues init [0; 0; 0; 0; 0; 0; 1; 0] = Ok ("Z", Some 0).
Proof.
  apply (phase_bits_10_give_Z0 init [0; 0; 0; 0; 0; 0; 1; 0]).
  - closed_syndrome_vector.
  - reflexivity.
  - reflexivity.
Defined.

(** C4, as the claim has it, fails: the vector with bits 0-5 zero and bits
    6-7 equal to [1, 0] is a syndrome vector on which the decoder returns
    ('Z', 0), not ('Z', 3). *)
Lemma phase_bits_10_not_Z3 :
  syndrome_vector [0; 0; 0; 0; 0; 0; 1; 0] /\
  firstn 6 [0; 0; 0; 0; 0; 0; 1; 0] = [0; 0; 0; 0; 0; 0] /\
  skipn 6 [0; 0; 0; 0; 0; 0; 1; 0] = [1; 0] /\
  map eigenvalue [1; 0] = [-1; 1] /\
  interpret_syndrome_eigenvalues init [0; 0; 0; 0; 0; 0; 1; 0] = Ok ("Z", Some 0) /\
  interpret_syndrome_eigenvalues init [0; 0; 0; 0; 0; 0; 1; 0] <> Ok ("Z", Some 3).
Proof.
  split; [closed_syndrome_vector|].
  repeat split; try reflexivity.
  discriminate.
Qed.

(** C5.  The decoder returns ('X', 0) on [1,0,0,0,0,0,0,0], whose
    eigenvalues are [-1,1,1,1,1,1,1,1]. *)
Theorem decode_X0 (self : ShorCode) :
  map eigenvalue [1; 0; 0; 0; 0; 0; 0; 0] = [-1; 1; 1; 1; 1; 1; 1; 1] /\
  interpret_syndrome_eigenvalues self [1; 0; 0; 0; 0; 0; 0; 0] = Ok ("X", Some 0).
Proof.
  split; reflexivity.
Qed.

(** C6.  The decoder returns ('I', None) on [0,0,0,0,0,0,0,0]. *)
Theorem decode_all_zero (self : ShorCode) :
  interpret_syndrome_eigenvalues self [0; 0; 0; 0; 0; 0; 0; 0] = Ok ("I", None).
Proof.
  unfold interpret_syndrome_eigenvalues.
  rewrite bit_flip_loop_zero_prefix. reflexivity.
Qed.

(** ** The classifications the decoder can return *)

Lemma classifications_NoDup : NoDup classifications.
Proof.
  unfold classifications.
  repeat (apply NoDup_cons;
          [simpl; intros H;
           repeat (destruct H as [H | H]; [discriminate H|]); exact H|]).
  apply NoDup_nil.
Qed.

Lemma classifications_spec (r : classification) :
  In r classifications <->
  r = ("I", None) \/
  (exists q, r = ("X", Some q) /\ 0 <= q <= 8) \/
  (exists q, r = ("Z", Some q) /\ (q = 0 \/ q = 3 \/ q = 6)).
Proof.
  split.
  - unfold classifications. simpl. intros H.
    repeat (destruct H as [<- | H];
            [first [ left; reflexivity
                   | right; left; eexists; split; [reflexivity | lia]
                   | right; right; eexists; split; [reflexivity | lia] ]|]).
    contradiction.
  - intros [-> | [(q & -> & Hq) | (q & -> & Hq)]].
    + simpl. auto.
    + assert (q = 0 \/ q = 1 \/ q = 2 \/ q = 3 \/ q = 4 \/ q = 5 \/
              q = 6 \/ q = 7 \/ q = 8) as Hcases by lia.
      repeat (destruct Hcases as [-> | Hcases]; [simpl; auto 20|]).
      subst q. simpl. auto 20.
    + destruct Hq as [-> | [-> | ->]]; simpl; auto 20.
Qed.

(** Each of the thirteen is the decoder's answer on some vector of bits. *)
Lemma classifications_reached (self : ShorCode) (r : classification) :
  In r classifications ->
  exists s, syndrome_vector s /\ interpret_syndrome_eigenvalues self s = Ok r.
Proof.
  unfold classifications. simpl. intros H.
  destruct H as [<- | H]; [exists [0;0;0;0;0;0;0;0]; split; [closed_syndrome_vector | reflexivity]|].
  destruct H as [<- | H]; [exists [1;0;0;0;0;0;0;0]; split; [closed_syndrome_vector | reflexivity]|].
  destruct H as [<- | H]; [exists [1;1;0;0;0;0;0;0]; split; [closed_syndrome_vector | reflexivity]|].
  destruct H as [<- | H]; [exists [0;1;0;0;0;0;0;0]; split; [closed_syndrome_vector | reflexivity]|].
  destruct H as [<- | H]; [exists [0;0;1;0;0;0;0;0]; split; [closed_syndrome_vector | reflexivity]|].
  destruct H as [<- | H]; [exists [0;0;1;1;0;0;0;0]; split; [closed_syndrome_vector | reflexivity]|].
  destruct H as [<- | H]; [exists [0;0;0;1;0;0;0;0]; split; [closed_syndrome_vector | reflexivity]|].
  destruct H as [<- | H]; [exists [0;0;0;0;1;0;0;0]; split; [closed_syndrome_vector | reflexivity]|].
  destruct H as [<- | H]; [exists [0;0;0;0;1;1;0;0]; split; [closed_syndrome_vector | reflexivity]|].
  destruct H as [<- | H]; [exists [0;0;0;0;0;1;0;0]; split; [closed_syndrome_vector | reflexivity]|].
  destruct H as [<- | H]; [exists [0;0;0;0;0;0;1;0]; split; [closed_syndrome_vector | reflexivity]|].
  destruct H as [<- | H]; [exists [0;0;0;0;0;0;1;1]; split; [closed_syndrome_vector | reflexivity]|].
  destruct H as [<- | H]; [exists [0;0;0;0;0;0;0;1]; split; [closed_syndrome_vector | reflexivity]|].
  contradiction.
Qed.

(** The phase-flip part raises nothing on eight or more eigenvalues, and
    returns a phase-flip on 0, 3 or 6, or no error. *)
Lemma phase_flip_total (e : list Z) :
  (8 <= List.length e)%nat ->
  exists r, phase_flip e = Ok r /\
            (r = ("Z", Some 0) \/ r = ("Z", Some 3) \/ r = ("Z", Some 6) \/
             r = ("I", None)).
Proof.
  intros Hlen. unfold phase_flip.
  destruct (getitem_in_range e 6) as (p1 & _ & ->); [lia|].
  destruct (getitem_in_range e 7) as (p2 & _ & ->); [lia|].
  cbn [bind].
  repeat (destruct (_ && _); [eexists; split; [reflexivity | auto]|]).
  eexists; split; [reflexivity | auto].
Qed.

(** The decoder raises nothing on eight or more integers, and its answer is
    one of the thirteen. *)
Lemma interpret_total (self : ShorCode) (s : list Z) :
  (8 <= List.length s)%nat ->
  exists r, interpret_syndrome_eigenvalues self s = Ok r /\ In r classifications.
Proof.
  intros Hlen. unfold interpret_syndrome_eigenvalues.
  assert (He : (8 <= List.length (map eigenvalue s))%nat)
    by (rewrite length_map; exact Hlen).
  destruct (bit_flip_loop_total (map eigenvalue s) (range 3)) as [found Hfound].
  { repeat (apply Forall_cons; [simpl; lia|]). apply Forall_nil. }
  rewrite Hfound. cbn [bind].
  destruct found as [r|].
  - exists r. split; [reflexivity|].
    destruct (bit_flip_loop_returns _ _ _ Hfound) as (block & off & Hin & Hoff & ->).
    apply classifications_spec. right. left.
    eexists. split; [reflexivity|].
    simpl in Hin. destruct Hin as [<- | [<- | [<- | []]]]; lia.
  - destruct (phase_flip_total _ He) as (r & -> & Hr).
    exists r. split; [reflexivity|].
    destruct Hr as [-> | [-> | [-> | ->]]]; simpl; auto 20.
Qed.

(** C3, as the code has it.  On the 256 syndrome vectors of eight bits the
    decoder is total and raises nothing; its result is ('I', None), or
    ('X', q) with q in [0,8], or ('Z', q) with q in {0, 3, 6}; these are
    thirteen different classifications, each of them returned on some
    syndrome vector, and the result does not depend on the state of the
    object. *)
Theorem decoder_total_thirteen (self : ShorCode) (s : list Z) :
  syndrome_vector s ->
  (exists r,
     interpret_syndrome_eigenvalues self s = Ok r /\
     (forall other : ShorCode, interpret_syndrome_eigenvalues other s = Ok r) /\
     In r classifications /\
     (r = ("I", None) \/
      (exists q, r = ("X", Some q) /\ 0 <= q <= 8) \/
      (exists q, r = ("Z", Some q) /\ (q = 0 \/ q = 3 \/ q = 6)))) /\
  NoDup classifications /\
  List.length classifications = 13%nat /\
  (forall c, In c classifications ->
     exists v, syndrome_vector v /\ interpret_syndrome_eigenvalues self v = Ok c).
Proof.
  intros [Hlen _]. split; [|split; [|split]].
  - destruct (interpret_total self s) as (r & Hr & Hin); [lia|].
    exists r. repeat split.
    + exact Hr.
    + intros other. exact Hr.
    + exact Hin.
    + apply classifications_spec. exact Hin.
  - exact classifications_NoDup.
  - reflexivity.
  - intros c. apply classifications_reached.
Qed.

Lemma decoder_total_thirteen_witness :
  exists r,
    interpret_syndrome_eigenvalues init [0; 1; 1; 0; 0; 0; 1; 1] = Ok r /\
    In r classifications.
Proof.
  destruct (decoder_total_thirteen init [0; 1; 1; 0; 0; 0; 1; 1])
    as [(r & Hr & _ & Hin & _) _].
  - closed_syndrome_vector.
  - exists r. split; assumption.
Defined.

(** C3, as the claim has it, fails on the count: no nine classifications
    hold the decoder's results on all syndrome vectors. *)
Lemma no_nine_classifications :
  ~ exists nine : list classification,
      List.length nine = 9%nat /\
      forall s, syndrome_vector s ->
        exists r, interpret_syndrome_eigenvalues init s = Ok r /\ In r nine.
Proof.
  intros (nine & Hlen & Hall).
  assert (Hincl : incl classifications nine).
  { intros c Hc.
    destruct (classifications_reached init c Hc) as (v & Hv & Hdec).
    destruct (Hall v Hv) as (r & Hr & Hin).
    rewrite Hdec in Hr. injection Hr as <-. exact Hin. }
  pose proof (NoDup_incl_length classifications_NoDup Hincl) as Hle.
  rewrite Hlen in Hle. simpl in Hle. lia.
Qed.

(** C7.  On a syndrome vector of eight bits, two invocations of the
    decoder, whatever the state of the object at each of them, return a
    result, and the same one. *)
Theorem decoder_deterministic (self1 self2 : ShorCode) (s : list Z) :
  syndrome_vector s ->
  exists r,
    interpret_syndrome_eigenvalues self1 s = Ok r /\
    interpret_syndrome_eigenvalues self2 s = Ok r.
Proof.
  intros [Hlen _].
  destruct (interpret_total self1 s) as (r & Hr & _); [lia|].
  exists r. split; exact Hr.
Qed.

Lemma decoder_deterministic_witness :
  exists r,
    interpret_syndrome_eigenvalues init [1; 0; 1; 1; 0; 1; 0; 1] = Ok r /\
    interpret_syndrome_eigenvalues (mkShorCode 0 0) [1; 0; 1; 1; 0; 1; 0; 1] = Ok r.
Proof.
  apply (decoder_deterministic init (mkShorCode 0 0) [1; 0; 1; 1; 0; 1; 0; 1]).
  closed_syndrome_vector.
Defined.

(** A pair of eigenvalues that is none of the three patterns comes from two
    zero bits. *)
Lemma trivial_pair_bits (b1 b2 : Z) :
  (eigenvalue b1 =? -1) && (eigenvalue b2 =? 1) = false ->
  (eigenvalue b1 =? -1) && (eigenvalue b2 =? -1) = false ->
  (eigenvalue b1 =? 1) && (eigenvalue b2 =? -1) = false ->
  b1 = 0 /\ b2 = 0.
Proof.
  destruct (eigenvalue_cases b1) as [[-> ->] | [_ ->]];
    destruct (eigenvalue_cases b2) as [[-> ->] | [_ ->]];
    simpl; intros; (split; reflexivity) || discriminate.
Qed.

(** Falling out of the loop on eight elements: bits 0-5 are zero. *)
Lemma bit_flip_loop_none_bits (a0 a1 a2 a3 a4 a5 a6 a7 : Z) :
  bit_flip_loop (map eigenvalue [a0; a1; a2; a3; a4; a5; a6; a7]) (range 3)
  = Ok None ->
  firstn 6 [a0; a1; a2; a3; a4; a5; a6; a7] = [0; 0; 0; 0; 0; 0].
Proof.
  intros H. apply bit_flip_loop_none in H.
  change (range 3) with [0; 1; 2] in H.
  inversion_clear H as [|? ? H0 H']. inversion_clear H' as [|? ? H1 H''].
  inversion_clear H'' as [|? ? H2 _].
  destruct H0 as (s1 & s2 & E1 & E2 & Ha & Hb & Hc).
  injection E1 as <-. injection E2 as <-.
  destruct (trivial_pair_bits _ _ Ha Hb Hc) as [-> ->]. clear Ha Hb Hc.
  destruct H1 as (s1 & s2 & E1 & E2 & Ha & Hb & Hc).
  injection E1 as <-. injection E2 as <-.
  destruct (trivial_pair_bits _ _ Ha Hb Hc) as [-> ->]. clear Ha Hb Hc.
  destruct H2 as (s1 & s2 & E1 & E2 & Ha & Hb & Hc).
  injection E1 as <-. injection E2 as <-.
  destruct (trivial_pair_bits _ _ Ha Hb Hc) as [-> ->].
  reflexivity.
Qed.

(** A result that is not a bit-flip comes from the part after the loop. *)
Lemma interpret_not_X (self : ShorCode) (s : list Z) (t : string) (q : option Z) :
  interpret_syndrome_eigenvalues self s = Ok (t, q) ->
  t <> "X" ->
  bit_flip_loop (map eigenvalue s) (range 3) = Ok None /\
  phase_flip (map eigenvalue s) = Ok (t, q).
Proof.
  unfold interpret_syndrome_eigenvalues.
  destruct (bit_flip_loop (map eigenvalue s) (range 3)) as [[r|]|] eqn:Hloop;
    cbn [bind]; intros H Ht.
  - injection H as ->.
    destruct (bit_flip_loop_returns _ _ _ Hloop) as (b & off & _ & _ & [= -> _]).
    contradiction Ht. reflexivity.
  - split; [reflexivity | exact H].
  - discriminate H.
Qed.

(** C8.  On a syndrome vector of eight bits, the decoder returns a
    phase-flip ('Z', _) only if bits 0-5 are all 0, and it returns
    ('I', None) if and only if all eight bits are 0. *)
Theorem phase_flip_and_no_error_conditions (self : ShorCode) (s : list Z) :
  syndrome_vector s ->
  (forall q, interpret_syndrome_eigenvalues self s = Ok ("Z", q) ->
             firstn 6 s = [0; 0; 0; 0; 0; 0]) /\
  (interpret_syndrome_eigenvalues self s = Ok ("I", None) <->
   s = [0; 0; 0; 0; 0; 0; 0; 0]).
Proof.
  intros [Hlen _].
  destruct (length8_inv s Hlen) as (a0 & a1 & a2 & a3 & a4 & a5 & a6 & a7 & ->).
  split; [|split].
  - intros q H.
    apply interpret_not_X in H; [|discriminate].
    apply bit_flip_loop_none_bits. apply H.
  - intros H.
    apply interpret_not_X in H; [|discriminate].
    destruct H as [Hloop Hphase].
    apply bit_flip_loop_none_bits in Hloop.
    injection Hloop as -> -> -> -> -> ->.
    revert Hphase. unfold phase_flip.
    change (getitem (map eigenvalue [0; 0; 0; 0; 0; 0; a6; a7]) 6)
      with (Ok (eigenvalue a6)).
    change (getitem (map eigenvalue [0; 0; 0; 0; 0; 0; a6; a7]) 7)
      with (Ok (eigenvalue a7)).
    cbn [bind].
    destruct (eigenvalue_cases a6) as [[-> ->] | [_ ->]];
      destruct (eigenvalue_cases a7) as [[-> ->] | [_ ->]];
      simpl; intros H; (reflexivity || discriminate H).
  - intros [= -> -> -> -> -> -> -> ->]. reflexivity.
Qed.

Lemma phase_flip_and_no_error_conditions_witness :
  (forall q, interpret_syndrome_eigenvalues init [0; 0; 0; 0; 0; 0; 1; 1] = Ok ("Z", q) ->
             firstn 6 [0; 0; 0; 0; 0; 0; 1; 1] = [0; 0; 0; 0; 0; 0]) /\
  (interpret_syndrome_eigenvalues init [0; 0; 0; 0; 0; 0; 1; 1] = Ok ("I", None) <->
   [0; 0; 0; 0; 0; 0; 1; 1] = [0; 0; 0; 0; 0; 0; 0; 0]).
Proof.
  apply (phase_flip_and_no_error_conditions init [0; 0; 0; 0; 0; 0; 1; 1]).
  closed_syndrome_vector.
Defined.

(** C9.  On any eight integers the decoder raises nothing, and its result
    is its result on the list in which every nonzero element is replaced
    by 1. *)
Theorem nonzero_is_one (self : ShorCode) (s : list Z) :
  List.length s = 8%nat ->
  (exists r, interpret_syndrome_eigenvalues self s = Ok r) /\
  syndrome_vector (map normalize s) /\
  interpret_syndrome_eigenvalues self s =
  interpret_syndrome_eigenvalues self (map normalize s).
Proof.
  intros Hlen. split; [|split].
  - destruct (interpret_total self s) as (r & Hr & _); [lia|].
    exists r. exact Hr.
  - split.
    + rewrite length_map. exact Hlen.
    + apply Forall_map. apply Forall_forall. intros v _. apply normalize_bit.
  - unfold interpret_syndrome_eigenvalues.
    rewrite map_map.
    rewrite (map_ext (fun v => eigenvalue (normalize v)) eigenvalue eigenvalue_normalize).
    reflexivity.
Qed.

Lemma nonzero_is_one_witness :
  interpret_syndrome_eigenvalues init [0; 0; 7; -2; 0; 0; 1; 0] = Ok ("X", Some 4) /\
  interpret_syndrome_eigenvalues init [0; 0; 1; 1; 0; 0; 1; 0] = Ok ("X", Some 4).
Proof.
  destruct (nonzero_is_one init [0; 0; 7; -2; 0; 0; 1; 0]) as (_ & _ & H).
  - reflexivity.
  - split; [reflexivity|]. change [0; 0; 1; 1; 0; 0; 1; 0]
      with (map normalize [0; 0; 7; -2; 0; 0; 1; 0]).
    rewrite <- H. reflexivity.
Defined.

(** C10.  For every circuit and every string [error_type]: on a qubit
    index of the circuit, [add_error] appends exactly one X gate on that
    qubit when the error type is 'X' and exactly one Z gate on it when the
    error type is 'Z', leaving the registers and the operations already in
    the circuit as they were; for any other error type, whatever the qubit,
    it returns the circuit unchanged and raises nothing. *)
Theorem add_error_effect
  (self : ShorCode) (circuit : QuantumCircuit) (error_type : string) (qubit : Z) :
  (0 <= qubit < num_qubits circuit ->
   error_type = "X" ->
   add_error self circuit error_type qubit =
     mkQuantumCircuit (num_qubits circuit) (cregs circuit)
                      (data circuit ++ [Gate (XGate qubit)])) /\
  (0 <= qubit < num_qubits circuit ->
   error_type = "Z" ->
   add_error self circuit error_type qubit =
     mkQuantumCircuit (num_qubits circuit) (cregs circuit)
                      (data circuit ++ [Gate (ZGate qubit)])) /\
  (error_type <> "X" -> error_type <> "Z" ->
   add_error self circuit error_type qubit = circuit).
Proof.
  unfold add_error. repeat split.
  - intros _ ->. reflexivity.
  - intros _ ->. reflexivity.
  - intros HX HZ.
    destruct (String.eqb_spec error_type "X") as [E | _]; [contradiction|].
    destruct (String.eqb_spec error_type "Z") as [E | _]; [contradiction|].
    reflexivity.
Qed.

Lemma add_error_effect_witness :
  add_error init (mkQuantumCircuit 10 [] [Gate (HGate 0); Gate (CXGate 0 1)]) "X" 4
  = mkQuantumCircuit 10 [] [Gate (HGate 0); Gate (CXGate 0 1); Gate (XGate 4)] /\
  add_error init (mkQuantumCircuit 10 [] [Gate (HGate 0); Gate (CXGate 0 1)]) "Z" 4
  = mkQuantumCircuit 10 [] [Gate (HGate 0); Gate (CXGate 0 1); Gate (ZGate 4)] /\
  add_error init (mkQuantumCircuit 10 [] [Gate (HGate 0); Gate (CXGate 0 1)]) "Y" 4
  = mkQuantumCircuit 10 [] [Gate (HGate 0); Gate (CXGate 0 1)].
Proof.
  split; [|split].
  - apply (add_error_effect init
             (mkQuantumCircuit 10 [] [Gate (HGate 0); Gate (CXGate 0 1)]) "X" 4).
    + simpl. lia.
    + reflexivity.
  - apply (add_error_effect init
             (mkQuantumCircuit 10 [] [Gate (HGate 0); Gate (CXGate 0 1)]) "Z" 4).
    + simpl. lia.
    + reflexivity.
  - apply (add_error_effect init
             (mkQuantumCircuit 10 [] [Gate (HGate 0); Gate (CXGate 0 1)]) "Y" 4);
      discriminate.
Defined.

(** * Further properties of the decoder *)

Lemma getitem_past_end {A : Type} (l : list A) (i : Z) :
  Z.of_nat (List.length l) <= i -> getitem l i = Raise IndexError.
Proof.
  intros Hi. unfold getitem.
  destruct (i <? 0) eqn:Hneg; [apply Z.ltb_lt in Hneg; lia|].
  replace ((i <? 0) || (Z.of_nat (List.length l) <=? i)) with true; [reflexivity|].
  symmetry. apply orb_true_iff. right. apply Z.leb_le. exact Hi.
Qed.

Lemma getitem_firstn {A : Type} (l : list A) (n : nat) (i : Z) :
  (n <= List.length l)%nat ->
  0 <= i < Z.of_nat n ->
  getitem (firstn n l) i = getitem l i.
Proof.
  intros Hn Hi.
  destruct (getitem_in_range (firstn n l) i) as (v & Hv & ->).
  { rewrite length_firstn. lia. }
  destruct (getitem_in_range l i) as (w & Hw & ->); [lia|].
  rewrite nth_error_firstn in Hv.
  destruct (Nat.ltb_spec (Z.to_nat i) n); [|lia].
  congruence.
Qed.

(** The loop sees the list of eigenvalues only through the subscripts of
    its blocks. *)
Lemma bit_flip_loop_ext (e e' : list Z) (blocks : list Z) :
  Forall (fun j => getitem e (j * 2) = getitem e' (j * 2) /\
                   getitem e (j * 2 + 1) = getitem e' (j * 2 + 1)) blocks ->
  bit_flip_loop e blocks = bit_flip_loop e' blocks.
Proof.
  induction 1 as [|j rest [H1 H2] _ IH]; simpl.
  - reflexivity.
  - rewrite H1, H2, IH. reflexivity.
Qed.

(** The decoder uses the subscripts 0 to 7 only. *)
Lemma interpret_firstn8 (self : ShorCode) (s : list Z) :
  (8 <= List.length s)%nat ->
  interpret_syndrome_eigenvalues self s =
  interpret_syndrome_eigenvalues self (firstn 8 s).
Proof.
  intros Hlen.
  assert (Hget : forall i, 0 <= i < 8 ->
            getitem (map eigenvalue (firstn 8 s)) i = getitem (map eigenvalue s) i).
  { intros i Hi. rewrite !getitem_map.
    rewrite getitem_firstn; [reflexivity | exact Hlen | lia]. }
  unfold interpret_syndrome_eigenvalues, phase_flip.
  rewrite (bit_flip_loop_ext (map eigenvalue (firstn 8 s)) (map eigenvalue s)).
  - rewrite (Hget 6), (Hget 7) by lia. reflexivity.
  - repeat (apply Forall_cons; [split; apply Hget; lia|]). apply Forall_nil.
Qed.

(** X1.  Of a list of eight or more integers the decoder reads the first
    eight only: the elements from subscript 8 on never change the result,
    and the result is one of the thirteen classifications. *)
Theorem decoder_reads_first_eight (self : ShorCode) (s : list Z) :
  (8 <= List.length s)%nat ->
  interpret_syndrome_eigenvalues self s =
  interpret_syndrome_eigenvalues self (firstn 8 s) /\
  exists r, interpret_syndrome_eigenvalues self s = Ok r /\ In r classifications.
Proof.
  intros Hlen. split.
  - apply interpret_firstn8. exact Hlen.
  - apply interpret_total. exact Hlen.
Qed.

Lemma decoder_reads_first_eight_witness :
  interpret_syndrome_eigenvalues init [0; 0; 0; 0; 0; 0; 1; 1; 1; 5; 0]
  = Ok ("Z", Some 3).
Proof.
  destruct (decoder_reads_first_eight init [0; 0; 0; 0; 0; 0; 1; 1; 1; 5; 0])
    as [-> _].
  - simpl. lia.
  - reflexivity.
Defined.

(** A bit-flip returned by the loop was found on a pair it could read. *)
Lemma bit_flip_loop_returns_read (e : list Z) (blocks : list Z) (r : classification) :
  bit_flip_loop e blocks = Ok (Some r) ->
  exists block off v,
    In block blocks /\ 0 <= off <= 2 /\ r = ("X", Some (block * 3 + off)) /\
    getitem e (block * 2 + 1) = Ok v.
Proof.
  induction blocks as [|block rest IH]; simpl; [discriminate|].
  destruct (getitem e (block * 2)) as [s1|]; simpl; [|discriminate].
  destruct (getitem e (block * 2 + 1)) as [s2|] eqn:H2; simpl; [|discriminate].
  destruct ((s1 =? -1) && (s2 =? 1)).
  { intros [= <-]. exists block, 0, s2. rewrite Z.add_0_r.
    repeat split; auto; lia. }
  destruct ((s1 =? -1) && (s2 =? -1)).
  { intros [= <-]. exists block, 1, s2. repeat split; auto; lia. }
  destruct ((s1 =? 1) && (s2 =? -1)).
  { intros [= <-]. exists block, 2, s2. repeat split; auto; lia. }
  intros H. destruct (IH H) as (b & off & v & Hin & Hoff & -> & Hv).
  exists b, off, v. auto.
Qed.

(** X2.  On a list of fewer than eight integers the decoder never returns
    a phase-flip or no error: it either raises [IndexError] or returns a
    bit-flip ('X', q) whose block's pair of bits lies within the list; on
    fewer than two integers it raises [IndexError]. *)
Theorem short_list_raises_or_bit_flip (self : ShorCode) (s : list Z) :
  (List.length s < 8)%nat ->
  (interpret_syndrome_eigenvalues self s = Raise IndexError \/
   exists q, interpret_syndrome_eigenvalues self s = Ok ("X", Some q) /\
             0 <= q <= 8 /\ 2 * (q / 3) + 2 <= Z.of_nat (List.length s)) /\
  ((List.length s < 2)%nat ->
   interpret_syndrome_eigenvalues self s = Raise IndexError).
Proof.
  intros Hlen.
  assert (He : List.length (map eigenvalue s) = List.length s) by apply length_map.
  split.
  - unfold interpret_syndrome_eigenvalues.
    destruct (bit_flip_loop (map eigenvalue s) (range 3)) as [[r|]|[]] eqn:Hloop;
      cbn [bind].
    + right.
      destruct (bit_flip_loop_returns_read _ _ _ Hloop)
        as (block & off & v & Hin & Hoff & -> & Hv).
      assert (Hblock : 0 <= block <= 2).
      { simpl in Hin. destruct Hin as [<- | [<- | [<- | []]]]; lia. }
      exists (block * 3 + off). split; [reflexivity|].
      assert (Hq : (block * 3 + off) / 3 = block).
      { rewrite Z.add_comm, Z.div_add by lia.
        rewrite Z.div_small by lia. reflexivity. }
      rewrite Hq. split; [lia|].
      destruct (Z.le_gt_cases (Z.of_nat (List.length (map eigenvalue s)))
                              (block * 2 + 1)) as [Hpast | Hin_range].
      * rewrite (getitem_past_end _ _ Hpast) in Hv. discriminate Hv.
      * lia.
    + left. unfold phase_flip.
      destruct (getitem (map eigenvalue s) 6) as [p1|[]]; cbn [bind]; [|reflexivity].
      rewrite getitem_past_end by lia. reflexivity.
    + left. reflexivity.
  - intros Hshort. unfold interpret_syndrome_eigenvalues.
    change (range 3) with [0; 1; 2]. simpl.
    destruct (getitem (map eigenvalue s) 0) as [s1|[]]; cbn [bind]; [|reflexivity].
    rewrite getitem_past_end by lia. reflexivity.
Qed.

Lemma short_list_raises_or_bit_flip_witness :
  interpret_syndrome_eigenvalues init [0; 0; 1] = Raise IndexError \/
  exists q, interpret_syndrome_eigenvalues init [0; 0; 1] = Ok ("X", Some q) /\
            0 <= q <= 8 /\ 2 * (q / 3) + 2 <= 3.
Proof.
  apply (short_list_raises_or_bit_flip init [0; 0; 1]).
  simpl. lia.
Defined.

Lemma syndrome_vector_inv (s : list Z) :
  syndrome_vector s ->
  exists a0 a1 a2 a3 a4 a5 a6 a7,
    s = [a0; a1; a2; a3; a4; a5; a6; a7] /\
    is_bit a0 /\ is_bit a1 /\ is_bit a2 /\ is_bit a3 /\
    is_bit a4 /\ is_bit a5 /\ is_bit a6 /\ is_bit a7.
Proof.
  intros [Hlen Hbits].
  destruct (length8_inv s Hlen) as (a0 & a1 & a2 & a3 & a4 & a5 & a6 & a7 & ->).
  exists a0, a1, a2, a3, a4, a5, a6, a7.
  split; [reflexivity|].
  repeat (match goal with
          | H : Forall _ (_ :: _) |- _ => inversion_clear H
          end).
  repeat split; assumption.
Qed.

(** X3.  The converse of the decision table: when the decoder returns
    ('X', q) on a syndrome vector of eight bits, q is in [0,8], all bits of
    the blocks before block q/3 are 0, and the two bits of block q/3 are
    [1,0], [1,1] or [0,1] as q mod 3 is 0, 1 or 2. *)
Theorem bit_flip_result_determines_bits (self : ShorCode) (s : list Z) (q : Z) :
  syndrome_vector s ->
  interpret_syndrome_eigenvalues self s = Ok ("X", Some q) ->
  0 <= q <= 8 /\
  firstn (2 * Z.to_nat (q / 3)) s = repeat 0 (2 * Z.to_nat (q / 3))%nat /\
  firstn 2 (skipn (2 * Z.to_nat (q / 3)) s) =
    (if q mod 3 =? 0 then [1; 0] else if q mod 3 =? 1 then [1; 1] else [0; 1]).
Proof.
  intros Hs H.
  destruct (syndrome_vector_inv s Hs)
    as (a0 & a1 & a2 & a3 & a4 & a5 & a6 & a7 & -> &
        H0 & H1 & H2 & H3 & H4 & H5 & _ & _).
  destruct H0 as [-> | ->], H1 as [-> | ->], H2 as [-> | ->],
           H3 as [-> | ->], H4 as [-> | ->], H5 as [-> | ->];
    first
      [ (* some block reads a pattern: the result is a closed value *)
        injection H as <-; repeat split; (reflexivity || lia)
      | (* bits 0-5 are zero: the result is no bit-flip *)
        exfalso; revert H; unfold interpret_syndrome_eigenvalues;
        rewrite bit_flip_loop_zero_prefix; cbn [bind];
        destruct (phase_flip_total (map eigenvalue [0; 0; 0; 0; 0; 0; a6; a7]))
          as (r & -> & [-> | [-> | [-> | ->]]]); [simpl; lia | | | |];
        discriminate ].
Qed.

Lemma bit_flip_result_determines_bits_witness :
  firstn 2 [0; 0; 0; 1; 1; 0; 1; 1] = [0; 0] /\
  firstn 2 (skipn 2 [0; 0; 0; 1; 1; 0; 1; 1]) = [0; 1].
Proof.
  destruct (bit_flip_result_determines_bits init [0; 0; 0; 1; 1; 0; 1; 1] 5)
    as (_ & Hbefore & Hpair).
  - closed_syndrome_vector.
  - reflexivity.
  - split; [exact Hbefore | exact Hpair].
Defined.

(** X4.  A phase-flip or no-error answer pins the syndrome vector down: two
    syndrome vectors of eight bits on which the decoder returns the same
    result, other than a bit-flip, are the same vector. *)
Theorem other_results_have_one_vector
  (self : ShorCode) (s s' : list Z) (t : string) (q : option Z) :
  syndrome_vector s ->
  syndrome_vector s' ->
  t <> "X" ->
  interpret_syndrome_eigenvalues self s = Ok (t, q) ->
  interpret_syndrome_eigenvalues self s' = Ok (t, q) ->
  s = s'.
Proof.
  intros Hs Hs' Ht H H'.
  destruct (syndrome_vector_inv s Hs)
    as (a0 & a1 & a2 & a3 & a4 & a5 & a6 & a7 & -> & _ & _ & _ & _ & _ & _ & H6 & H7).
  destruct (syndrome_vector_inv s' Hs')
    as (b0 & b1 & b2 & b3 & b4 & b5 & b6 & b7 & -> & _ & _ & _ & _ & _ & _ & H6' & H7').
  destruct (interpret_not_X _ _ _ _ H Ht) as [Hloop Hphase].
  destruct (interpret_not_X _ _ _ _ H' Ht) as [Hloop' Hphase'].
  apply bit_flip_loop_none_bits in Hloop. injection Hloop as -> -> -> -> -> ->.
  apply bit_flip_loop_none_bits in Hloop'. injection Hloop' as -> -> -> -> -> ->.
  rewrite <- Hphase' in Hphase. clear - Hphase H6 H7 H6' H7'.
  destruct H6 as [-> | ->], H7 as [-> | ->], H6' as [-> | ->], H7' as [-> | ->];
    first [reflexivity | discriminate Hphase].
Qed.

Lemma other_results_have_one_vector_witness :
  interpret_syndrome_eigenvalues init [0; 0; 0; 0; 0; 0; 0; 1] = Ok ("Z", Some 6) /\
  [0; 0; 0; 0; 0; 0; 0; 1] = [0; 0; 0; 0; 0; 0; 0; 1].
Proof.
  split; [reflexivity|].
  apply (other_results_have_one_vector init
           [0; 0; 0; 0; 0; 0; 0; 1] [0; 0; 0; 0; 0; 0; 0; 1] "Z" (Some 6)).
  - closed_syndrome_vector.
  - closed_syndrome_vector.
  - discriminate.
  - reflexivity.
  - reflexivity.
Defined.

(** * The script's reading of the most likely outcome *)

Lemma int_of_char_digit (c : Ascii.ascii) :
  is_digit c -> int_of_char c = Done (code_of c - 48).
Proof.
  unfold is_digit, int_of_char, code_of. intros Hc.
  replace ((48 <=? _) && (_ <=? 57)) with true; [reflexivity|].
  symmetry. apply andb_true_iff. split; apply Z.leb_le; lia.
Qed.

Lemma int_of_char_other (c : Ascii.ascii) :
  ~ is_digit c -> int_of_char c = Failed ValueError.
Proof.
  unfold is_digit, int_of_char, code_of. intros Hc.
  destruct (Z.leb_spec 48 (Z.of_N (Ascii.N_of_ascii c)));
    destruct (Z.leb_spec (Z.of_N (Ascii.N_of_ascii c)) 57);
    simpl; (reflexivity || lia).
Qed.

Lemma is_digit_dec (c : Ascii.ascii) : is_digit c \/ ~ is_digit c.
Proof. unfold is_digit. lia. Qed.

Lemma is_bit_char_digit (c : Ascii.ascii) : is_bit_char c -> is_digit c.
Proof. intros [-> | ->]; unfold is_digit, code_of; simpl; lia. Qed.

Lemma is_bit_char_value (c : Ascii.ascii) : is_bit_char c -> is_bit (code_of c - 48).
Proof. intros [-> | ->]; [left | right]; reflexivity. Qed.

(** The comprehension over digits gives their values, in order. *)
Lemma int_each_digits (chars : list Ascii.ascii) :
  Forall is_digit chars ->
  int_each chars = Done (map (fun c => code_of c - 48) chars).
Proof.
  induction 1 as [|c rest Hc _ IH]; simpl.
  - reflexivity.
  - rewrite (int_of_char_digit c Hc), IH. reflexivity.
Qed.

(** The comprehension fails, with [ValueError], exactly when some
    character is no digit. *)
Lemma int_each_fails (chars : list Ascii.ascii) :
  Exists (fun c => ~ is_digit c) chars -> int_each chars = Failed ValueError.
Proof.
  induction chars as [|c rest IH]; intros H.
  - inversion H.
  - simpl. destruct (is_digit_dec c) as [Hc | Hc].
    + rewrite (int_of_char_digit c Hc).
      inversion H as [? ? Hbad | ? ? Hbad]; subst; [contradiction|].
      rewrite (IH Hbad). reflexivity.
    + rewrite (int_of_char_other c Hc). reflexivity.
Qed.

(** X5.  For an outcome string of decimal digits the script's list of
    syndrome bits has one element per character and is the string read
    from its end: element i is the value of the character i places before
    the last one.  For a string of '0' and '1' every element is a bit. *)
Theorem syndrome_bits_reverse_the_outcome (most_likely : string) :
  Forall is_digit (list_ascii_of_string most_likely) ->
  exists syndrome_bits,
    syndrome_bits_of most_likely = Done syndrome_bits /\
    List.length syndrome_bits = String.length most_likely /\
    (forall i, (i < String.length most_likely)%nat ->
       nth i syndrome_bits 0 =
       code_of (nth (String.length most_likely - 1 - i)
                    (list_ascii_of_string most_likely) "0"%char) - 48) /\
    (Forall is_bit_char (list_ascii_of_string most_likely) ->
     Forall is_bit syndrome_bits).
Proof.
  intros Hdigits.
  assert (Hlen : List.length (list_ascii_of_string most_likely)
                 = String.length most_likely).
  { clear. induction most_likely as [|c rest IH]; simpl; congruence. }
  exists (map (fun c => code_of c - 48) (rev (list_ascii_of_string most_likely))).
  split; [|split; [|split]].
  - unfold syndrome_bits_of. apply int_each_digits.
    apply Forall_rev. exact Hdigits.
  - rewrite length_map, length_rev. exact Hlen.
  - intros i Hi.
    change 0 with ((fun c => code_of c - 48) "0"%char) at 1.
    rewrite map_nth. rewrite rev_nth by lia.
    rewrite Hlen. f_equal. f_equal. f_equal. lia.
  - intros Hbits. apply Forall_map. apply Forall_rev.
    revert Hbits. apply Forall_impl. exact is_bit_char_value.
Qed.

Lemma syndrome_bits_reverse_the_outcome_witness :
  syndrome_bits_of "01000011" = Done [1; 1; 0; 0; 0; 0; 1; 0].
Proof.
  destruct (syndrome_bits_reverse_the_outcome "01000011")
    as (bits & Hbits & _).
  - repeat (apply Forall_cons; [unfold is_digit, code_of; simpl; lia|]).
    apply Forall_nil.
  - reflexivity.
Defined.

(** X6.  An outcome string with a character that is no decimal digit (a
    blank between registers, say) makes the script raise [ValueError],
    whatever its length: the decoder is not reached. *)
Theorem outcome_with_other_character_raises (shor : ShorCode) (most_likely : string) :
  Exists (fun c => ~ is_digit c) (list_ascii_of_string most_likely) ->
  syndrome_bits_of most_likely = Failed ValueError /\
  detect shor most_likely = Failed ValueError.
Proof.
  intros H.
  assert (Hfail : syndrome_bits_of most_likely = Failed ValueError).
  { unfold syndrome_bits_of. apply int_each_fails.
    apply Exists_rev. exact H. }
  split; [exact Hfail|].
  unfold detect. rewrite Hfail. reflexivity.
Qed.

Lemma outcome_with_other_character_raises_witness :
  detect init "0 00000001" = Failed ValueError.
Proof.
  apply (outcome_with_other_character_raises init "0 00000001").
  apply Exists_cons_tl. apply Exists_cons_hd.
  unfold is_digit, code_of. simpl. lia.
Defined.

(** X7.  For an outcome string of eight or more characters '0' and '1' the
    script raises nothing: the detected error is one of the thirteen
    classifications, and it is the decoder's result on the last eight
    characters read from the end. *)
Theorem detect_on_bit_string (shor : ShorCode) (most_likely : string) :
  Forall is_bit_char (list_ascii_of_string most_likely) ->
  (8 <= String.length most_likely)%nat ->
  exists r,
    detect shor most_likely = Done r /\
    In r classifications /\
    interpret_syndrome_eigenvalues shor
      (map (fun c => code_of c - 48)
           (firstn 8 (rev (list_ascii_of_string most_likely)))) = Ok r.
Proof.
  intros Hbits Hlen.
  assert (Hl : List.length (list_ascii_of_string most_likely)
               = String.length most_likely).
  { clear. induction most_likely as [|c rest IH]; simpl; congruence. }
  set (bits := map (fun c => code_of c - 48) (rev (list_ascii_of_string most_likely))).
  assert (Hconv : syndrome_bits_of most_likely = Done bits).
  { unfold syndrome_bits_of. apply int_each_digits. apply Forall_rev.
    revert Hbits. apply Forall_impl. exact is_bit_char_digit. }
  assert (Hbl : (8 <= List.length bits)%nat).
  { unfold bits. rewrite length_map, length_rev. lia. }
  destruct (interpret_total shor bits Hbl) as (r & Hr & Hin).
  exists r. split; [|split].
  - unfold detect. rewrite Hconv, Hr. reflexivity.
  - exact Hin.
  - rewrite <- firstn_map. fold bits.
    rewrite <- (interpret_firstn8 shor bits Hbl). exact Hr.
Qed.

Lemma detect_on_bit_string_witness :
  exists r, detect init "00000011" = Done r /\ In r classifications.
Proof.
  destruct (detect_on_bit_string init "00000011") as (r & Hr & Hin & _).
  - repeat (apply Forall_cons; [unfold is_bit_char; auto|]). apply Forall_nil.
  - simpl. lia.
  - exists r. split; assumption.
Defined.

(** * The circuit recipes *)

Lemma getitem_nth_error {A : Type} (l : list A) (i : Z) (v : A) :
  0 <= i -> nth_error l (Z.to_nat i) = Some v -> getitem l i = Ok v.
Proof.
  intros Hi Hnth.
  assert (Hlt : (Z.to_nat i < List.length l)%nat).
  { apply nth_error_Some. rewrite Hnth. discriminate. }
  destruct (getitem_in_range l i) as (w & Hw & ->); [lia|].
  congruence.
Qed.

(** [l[-1]] is the last element. *)
Lemma getitem_last {A : Type} (front : list A) (a : A) :
  getitem (front ++ [a]) (-1) = Ok a.
Proof.
  unfold getitem. rewrite length_app. simpl List.length.
  change (-1 <? 0) with true. cbv iota.
  replace (-1 + Z.of_nat (List.length front + 1)) with (Z.of_nat (List.length front)) by lia.
  replace ((_ <? 0) || (_ <=? _)) with false.
  - rewrite Nat2Z.id, nth_error_app2 by lia.
    rewrite Nat.sub_diag. reflexivity.
  - symmetry. apply orb_false_iff. split; [apply Z.ltb_ge | apply Z.leb_gt]; lia.
Qed.

(** X8.  The syndrome measurement needs a last classical register of at
    least eight bits: on a circuit without classical registers, and on a
    circuit of ten or more qubits whose last register has fewer than eight
    bits, it raises [IndexError]. *)
Theorem measurement_needs_eight_bits (self : ShorCode) (circuit : QuantumCircuit) :
  (cregs circuit = [] ->
   syndrome_eigenvalue_measurement self circuit = Raise IndexError) /\
  (forall front syndrome_reg,
     10 <= num_qubits circuit ->
     cregs circuit = (front ++ [syndrome_reg])%list ->
     (List.length syndrome_reg < 8)%nat ->
     syndrome_eigenvalue_measurement self circuit = Raise IndexError).
Proof.
  split.
  - intros Hnone. unfold syndrome_eigenvalue_measurement.
    rewrite Hnone. reflexivity.
  - intros front syndrome_reg _ Hregs Hshort.
    unfold syndrome_eigenvalue_measurement.
    rewrite Hregs, getitem_last. cbn [bind].
    do 8 (destruct syndrome_reg as [|? syndrome_reg]; [reflexivity|]).
    simpl in Hshort. lia.
Qed.

Lemma measurement_needs_eight_bits_witness :
  syndrome_eigenvalue_measurement init
    (mkQuantumCircuit 10 [classical_register 8 "other"; classical_register 5 "syndrome"] [])
  = Raise IndexError.
Proof.
  destruct (measurement_needs_eight_bits init
              (mkQuantumCircuit 10 [classical_register 8 "other";
                                    classical_register 5 "syndrome"] []))
    as [_ Hshort].
  apply (Hshort [classical_register 8 "other"] (classical_register 5 "syndrome")).
  - simpl. lia.
  - reflexivity.
  - simpl. lia.
Defined.

(** What the syndrome measurement appends, given the first eight bits of
    the syndrome register. *)
Lemma measurement_appends
  (self : ShorCode) (circuit : QuantumCircuit)
  (front : list ClassicalRegister) (c0 c1 c2 c3 c4 c5 c6 c7 : Clbit)
  (more : list Clbit) :
  cregs circuit = (front ++ [c0 :: c1 :: c2 :: c3 :: c4 :: c5 :: c6 :: c7 :: more])%list ->
  exists appended,
    syndrome_eigenvalue_measurement self circuit =
      Ok (mkQuantumCircuit (num_qubits circuit) (cregs circuit)
                           (data circuit ++ appended)) /\
    List.length appended = 61%nat /\
    pauli_gates appended = [] /\
    measurements appended =
      [(9, c0); (9, c1); (9, c2); (9, c3); (9, c4); (9, c5); (9, c6); (9, c7)] /\
    coupled_at_measurements 9 appended [] =
      [(c0, [0; 1]); (c1, [1; 2]); (c2, [3; 4]); (c3, [4; 5]);
       (c4, [6; 7]); (c5, [7; 8]);
       (c6, [0; 1; 2; 3; 4; 5]); (c7, [3; 4; 5; 6; 7; 8])].
Proof.
  destruct circuit as [n regs ops]. cbn [num_qubits cregs data].
  intros Hregs.
  set (reg := c0 :: c1 :: c2 :: c3 :: c4 :: c5 :: c6 :: c7 :: more) in *.
  assert (Hbit : forall i c, 0 <= i -> nth_error reg (Z.to_nat i) = Some c ->
                             getitem reg i = Ok c)
    by (intros; apply getitem_nth_error; assumption).
  unfold syndrome_eigenvalue_measurement. cbn [cregs].
  rewrite Hregs, getitem_last. cbn [bind].
  unfold enumerate. simpl combine. cbn [block_stabilizers].
  rewrite (Hbit (0 + 0) c0), (Hbit (1 + 0) c1), (Hbit (0 + 2) c2), (Hbit (1 + 2) c3),
          (Hbit (0 + 4) c4), (Hbit (1 + 4) c5), (Hbit 6 c6), (Hbit 7 c7)
    by (reflexivity || lia).
  cbn [bind fold_left].
  cbv [Circuit.reset Circuit.measure Circuit.h Circuit.cx Circuit.cz
         Circuit.append num_qubits cregs data].
  rewrite <- !app_assoc. cbn [app].
  rewrite <- Hregs.
  eexists. split; [reflexivity|].
  repeat split.
Qed.

(** X9.  On a circuit of ten or more qubits whose last classical register
    has eight or more bits, the syndrome measurement only appends: the
    registers and the operations already in the circuit stay, 61 operations
    follow, none of them a Pauli gate.  It measures qubit 9 eight times,
    into bits 0 to 7 of the last register in this order, and the data
    qubits coupled to qubit 9 before each of these measurements are, in
    turn, 0-1, 1-2, 3-4, 4-5, 6-7, 7-8, 0 to 5 and 3 to 8. *)
Theorem measurement_writes_syndrome_bits
  (self : ShorCode) (circuit : QuantumCircuit)
  (front : list ClassicalRegister) (syndrome_reg : ClassicalRegister) :
  10 <= num_qubits circuit ->
  cregs circuit = (front ++ [syndrome_reg])%list ->
  (8 <= List.length syndrome_reg)%nat ->
  exists appended,
    syndrome_eigenvalue_measurement self circuit =
      Ok (mkQuantumCircuit (num_qubits circuit) (cregs circuit)
                           (data circuit ++ appended)) /\
    List.length appended = 61%nat /\
    pauli_gates appended = [] /\
    measurements appended = map (fun clbit => (9, clbit)) (firstn 8 syndrome_reg) /\
    map fst (coupled_at_measurements 9 appended []) = firstn 8 syndrome_reg /\
    map snd (coupled_at_measurements 9 appended []) =
      [[0; 1]; [1; 2]; [3; 4]; [4; 5]; [6; 7]; [7; 8];
       [0; 1; 2; 3; 4; 5]; [3; 4; 5; 6; 7; 8]].
Proof.
  intros _ Hregs Hlen.
  do 8 (destruct syndrome_reg as [|? syndrome_reg]; [simpl in Hlen; lia|]).
  destruct (measurement_appends self circuit front _ _ _ _ _ _ _ _ _ Hregs)
    as (appended & Hrun & Hcount & Hpauli & Hmeasured & Hcoupled).
  exists appended. rewrite Hcoupled.
  repeat split; assumption || reflexivity.
Qed.

Lemma measurement_writes_syndrome_bits_witness :
  exists appended,
    syndrome_eigenvalue_measurement init
      (mkQuantumCircuit 10 [classical_register 8 "syndrome"] [Gate (HGate 0)])
    = Ok (mkQuantumCircuit 10 [classical_register 8 "syndrome"]
                           (Gate (HGate 0) :: appended)) /\
    List.length appended = 61%nat.
Proof.
  destruct (measurement_writes_syndrome_bits init
              (mkQuantumCircuit 10 [classical_register 8 "syndrome"] [Gate (HGate 0)])
              [] (classical_register 8 "syndrome"))
    as (appended & Hrun & Hcount & _).
  - simpl. lia.
  - reflexivity.
  - simpl. lia.
  - exists appended. split; [exact Hrun | exact Hcount].
Defined.

(** X10.  Encoding only appends: on a circuit of nine or more qubits, for a
    data qubit of the circuit other than 3 and 6, the registers and the
    operations already in the circuit stay and eleven gates follow, none of
    them a Pauli gate, each acting on the data qubit or on qubits 0 to 8;
    two controlled-NOTs from the data qubit come first. *)
Theorem encode_appends_eleven_gates
  (self : ShorCode) (circuit : QuantumCircuit) (data_qubit : Z) :
  9 <= num_qubits circuit ->
  0 <= data_qubit < num_qubits circuit ->
  data_qubit <> 3 ->
  data_qubit <> 6 ->
  exists gates,
    encode self circuit data_qubit =
      mkQuantumCircuit (num_qubits circuit) (cregs circuit)
                       (data circuit ++ map Gate gates) /\
    List.length gates = 11%nat /\
    firstn 2 gates = [CXGate data_qubit 3; CXGate data_qubit 6] /\
    pauli_gates (map Gate gates) = [] /\
    Forall (fun g => forall q, In q (qubits_of (Gate g)) ->
                               q = data_qubit \/ 0 <= q <= 8) gates.
Proof.
  intros _ _ _ _.
  destruct circuit as [n regs ops].
  exists [CXGate data_qubit 3; CXGate data_qubit 6; HGate 0; HGate 3; HGate 6;
          CXGate 0 1; CXGate 0 2; CXGate 3 4; CXGate 3 5; CXGate 6 7; CXGate 6 8].
  split; [|split; [|split; [|split]]].
  - cbv [encode Circuit.h Circuit.cx Circuit.append num_qubits cregs data].
    rewrite <- !app_assoc. reflexivity.
  - reflexivity.
  - reflexivity.
  - reflexivity.
  - repeat (apply Forall_cons;
            [simpl; intros q Hq;
             repeat (destruct Hq as [<- | Hq]; [auto; right; lia|]);
             contradiction|]).
    apply Forall_nil.
Qed.

Lemma encode_appends_eleven_gates_witness :
  exists gates,
    encode init (mkQuantumCircuit 10 [classical_register 8 "syndrome"] [Gate (HGate 0)]) 0
    = mkQuantumCircuit 10 [classical_register 8 "syndrome"]
                       (Gate (HGate 0) :: map Gate gates) /\
    List.length gates = 11%nat.
Proof.
  destruct (encode_appends_eleven_gates init
              (mkQuantumCircuit 10 [classical_register 8 "syndrome"] [Gate (HGate 0)]) 0)
    as (gates & Hrun & Hcount & _).
  - simpl. lia.
  - simpl. lia.
  - discriminate.
  - discriminate.
  - exists gates. split; [exact Hrun | exact Hcount].
Defined.

(** X11.  The circuit the script builds for an error on a qubit of the
    circuit has its Pauli gates decided by the error type alone: one X gate
    on the qubit for 'X', one Z gate for 'Z', none for anything else.  That
    gate comes after the twelve operations that prepare and encode and
    before every measurement, and the circuit measures qubit 9 into bits 0
    to 7 of the register 'syndrome', in this order. *)
Theorem trial_circuit_shape (shor : ShorCode) (error_type : string) (qubit : Z) :
  0 <= qubit <= 9 ->
  exists qc,
    trial_circuit shor error_type qubit = Ok qc /\
    pauli_gates (data qc) =
      (if String.eqb error_type "X" then [XGate qubit]
       else if String.eqb error_type "Z" then [ZGate qubit]
       else []) /\
    pauli_gates (firstn 12 (data qc)) = [] /\
    measurements (firstn 13 (data qc)) = [] /\
    pauli_gates (skipn 13 (data qc)) = [] /\
    measurements (data qc) =
      map (fun clbit => (9, clbit)) (classical_register 8 "syndrome").
Proof.
  intros _. unfold trial_circuit, add_error.
  destruct (String.eqb error_type "X");
    [|destruct (String.eqb error_type "Z")];
    (eexists; split; [reflexivity|]; repeat split).
Qed.

Lemma trial_circuit_shape_witness :
  exists qc,
    trial_circuit init "Z" 5 = Ok qc /\ pauli_gates (data qc) = [ZGate 5].
Proof.
  destruct (trial_circuit_shape init "Z" 5) as (qc & Hrun & Hpauli & _).
  - lia.
  - exists qc. split; [exact Hrun | exact Hpauli].
Defined.

(** X12.  The injected error is the detected one.  Propagating the Pauli
    gate of a trial circuit through the operations after it, the syndrome
    bits it flips are decoded as ('X', q) for a bit-flip on any of the data
    qubits q = 0..8, as ('Z', 3 * (q / 3)), the first qubit of the block of
    q, for a phase-flip on q, and as ('I', None) when the error type is
    neither. *)
Theorem injected_error_is_detected (shor : ShorCode) (error_type : string) (q : Z) :
  0 <= q <= 8 ->
  exists qc,
    trial_circuit shor error_type q = Ok qc /\
    interpret_syndrome_eigenvalues shor (flipped_syndrome qc) =
      Ok (if String.eqb error_type "X" then ("X", Some q)
          else if String.eqb error_type "Z" then ("Z", Some (3 * (q / 3)))
          else ("I", None)).
Proof.
  intros Hq. unfold trial_circuit, add_error.
  assert (q = 0 \/ q = 1 \/ q = 2 \/ q = 3 \/ q = 4 \/ q = 5 \/
          q = 6 \/ q = 7 \/ q = 8) as Hcases by lia.
  destruct (String.eqb error_type "X");
    [|destruct (String.eqb error_type "Z")];
    [ | |eexists; split; reflexivity];
    repeat (destruct Hcases as [-> | Hcases];
            [eexists; split; [reflexivity | vm_compute; reflexivity]|]);
    subst q; eexists; split; [reflexivity | vm_compute; reflexivity
                             | reflexivity | vm_compute; reflexivity].
Qed.

Lemma injected_error_is_detected_witness :
  exists qc,
    trial_circuit init "Z" 4 = Ok qc /\
    interpret_syndrome_eigenvalues init (flipped_syndrome qc) = Ok ("Z", Some 3).
Proof.
  destruct (injected_error_is_detected init "Z" 4) as (qc & Hrun & Hdetect).
  - lia.
  - exists qc. split; [exact Hrun | exact Hdetect].
Defined.
